(** * train_resnet_cifar10.py: the training driver, embedded and verified

    The script is a linear driver: [cmd_parser] validates the parsed command
    line, [main] selects a scheduler, a model and the artifact paths, and then
    hands everything to Keras.  The embedding keeps that shape.

    - Python [int] is [Z]; Python [float] is a binary64 [float]; [str] is
      [string].
    - A local variable that some branch may leave unassigned
      ([lr_schedule_fn], [model], [depth]) is an [option]; reading it while it
      is [None] raises [UnboundLocalError], as the interpreter does.
    - [argparse] is library code: the embedding starts from the namespace
      that [parser.parse_args()] returns, and models the conversion function
      [string2bool] that the script hands to it.
    - Calls into TensorFlow, scikit-learn, the file system and the
      collaborator modules [data_loaders] and [models] are not part of the
      file.  They are recorded, in program order, as [event]s of a trace, and
      the objects they return are symbolic terms ([model], [array],
      [callback]).  The embedding assumes that these calls return.  The
      input shape read off the first training batch is the same opaque value
      in every call that takes it, and is left out.
    - [run A] is the monad of the driver: the trace emitted so far together
      with either the raised exception or the value. *)

From Stdlib Require Import String Ascii ZArith List Bool DecimalString.
From Stdlib Require Import Floats.
From ExtLib Require Import Structures.Monad Structures.MonadExc.
Import ListNotations.
Import MonadNotation.

Set Warnings "-inexact-float".

Local Open Scope string_scope.
Local Open Scope Z_scope.
Local Open Scope monad_scope.

(** ** Python built-ins used by the script *)

Module Py.

(** [x in [a, b, ...]] on strings. *)
Definition str_in (x : string) (l : list string) : bool :=
  existsb (String.eqb x) l.

(** [str(z)], which is also what ["%d" % z] and [f"{z}"] print. *)
Definition str_int (z : Z) : string :=
  NilEmpty.string_of_int (Z.to_int z).

(** [s.startswith("/")]. *)
Definition starts_with_sep (s : string) : bool :=
  match s with
  | String c _ => Ascii.eqb c "/"
  | EmptyString => false
  end.

(** [s.endswith("/")]. *)
Fixpoint ends_with_sep (s : string) : bool :=
  match s with
  | EmptyString => false
  | String c EmptyString => Ascii.eqb c "/"
  | String _ rest => ends_with_sep rest
  end.

(** [s.rstrip("/")]. *)
Fixpoint rstrip_sep (s : string) : string :=
  match s with
  | EmptyString => EmptyString
  | String c rest =>
      match rstrip_sep rest with
      | EmptyString => if Ascii.eqb c "/" then EmptyString else String c EmptyString
      | kept => String c kept
      end
  end.

(** One step of [posixpath.join]: an absolute component discards what came
    before it; otherwise the separator is added unless the path so far is
    empty or already ends with one. *)
Definition join2 (path b : string) : string :=
  if starts_with_sep b then b
  else if (path =? "")%string || ends_with_sep path then path ++ b
  else path ++ "/" ++ b.

(** [os.path.join(a, *p)] on a POSIX system. *)
Definition os_path_join (a : string) (p : list string) : string :=
  fold_left join2 p a.

(** [os.path.expanduser(path)] with [$HOME = home].  A path that does not
    start with a tilde is returned unchanged.  A [~user] form consults the
    password database; it is returned unchanged here, which is what Python
    does for an unknown user, and the script never produces one. *)
Definition expanduser (home path : string) : string :=
  match path with
  | String "~" rest =>
      if (rest =? "")%string || starts_with_sep rest then
        match rstrip_sep home ++ rest with
        | EmptyString => "/"
        | expanded => expanded
        end
      else path
  | _ => path
  end.

(** The double quote, for messages that contain one. *)
Definition dq : string := String (ascii_of_nat 34) EmptyString.

(** [repr] of a list of plain strings: [['a', 'b']]. *)
Definition repr_str_list (l : list string) : string :=
  "[" ++ String.concat ", " (map (fun s => "'" ++ s ++ "'") l) ++ "]".

End Py.

(** ** Exceptions *)

Inductive exn : Type :=
| ArgumentTypeError (msg : string)    (* argparse.ArgumentTypeError *)
| ValueError (msg : string)
| UnboundLocalError (name : string).  (* the local variable read before assignment *)

Definition is_ArgumentTypeError (e : exn) : bool :=
  match e with ArgumentTypeError _ => true | _ => false end.

Definition is_ValueError (e : exn) : bool :=
  match e with ValueError _ => true | _ => false end.

(** ** [cmd_parser]: the command line *)

(** What a Python function hands back: [string2bool] returns a [bool] on two
    paths and falls off its end (returning [None]) on the third. *)
Inductive pyval : Type :=
| PyBool (b : bool)
| PyNone.

(** Lines 33-42. *)
Definition string2bool (string : String.string) : exn + pyval :=
  if negb (Py.str_in string ["False"; "True"]) then
    inl (ArgumentTypeError
           ("input(=" ++ string ++ ") NOT in [" ++ Py.dq ++ "False" ++ Py.dq
            ++ ", " ++ Py.dq ++ "True" ++ Py.dq ++ "]!"))
  else if (string =? "False")%string then inr (PyBool false)
  else if (string =? "True")%string then inr (PyBool true)
  else inr PyNone.

(** The namespace [parser.parse_args()] returns, one field per
    [add_argument] (lines 47-84).  [depth] is the attribute [main] adds on the
    CIFAR-10 path (line 171); it is [None] until then.  The fields live in a
    module of their own, so that [main]'s locals [version], [n], [depth] and
    the like stay distinct from [args.version], [args.n] and [args.depth]. *)
Module Namespace.

Record t : Type := mk {
  dataset : string;
  num_classes : Z;
  model_name : string;
  n : Z;
  version : Z;
  batch_size : Z;
  seed : Z;
  validation_split : float;
  norm : bool;
  epochs : Z;
  optimizer_name : string;
  learning_rate : float;
  weight_decay : float;
  momentum : float;
  lr_schedule : string;
  attention : bool;
  attention_type : string;
  depth : option Z
}.

(** The defaults of lines 47-84; the default seed is drawn by
    [np.random.randint(10000)] and comes from outside. *)
Definition defaults (random_seed : Z) : t :=
  {| dataset := "mnist"; num_classes := 10; model_name := "NoModel";
     n := 3; version := 1; batch_size := 32; seed := random_seed;
     validation_split := 0.2%float; norm := false;
     epochs := 100; optimizer_name := "SGD"; learning_rate := 0.1%float;
     weight_decay := 0.0001%float; momentum := 0.9%float;
     lr_schedule := "no_schedule";
     attention := false; attention_type := "official";
     depth := None |}.

(** [args.depth = d] (line 171). *)
Definition set_depth (args : t) (d : Z) : t :=
  {| dataset := dataset args; num_classes := num_classes args;
     model_name := model_name args; n := n args; version := version args;
     batch_size := batch_size args; seed := seed args;
     validation_split := validation_split args; norm := norm args;
     epochs := epochs args; optimizer_name := optimizer_name args;
     learning_rate := learning_rate args; weight_decay := weight_decay args;
     momentum := momentum args; lr_schedule := lr_schedule args;
     attention := attention args; attention_type := attention_type args;
     depth := Some d |}.

End Namespace.

Abbreviation Namespace := Namespace.t.

(** The message of line 90. *)
Definition attention_type_message (args : Namespace) : string :=
  "args.attention_type " ++ Namespace.attention_type args
  ++ " NOT in [" ++ Py.dq ++ "official" ++ Py.dq ++ ", " ++ Py.dq
  ++ "senet" ++ Py.dq ++ "]".

(** Lines 86-92: the check [cmd_parser] runs on the namespace that
    [parser.parse_args()] returned. *)
Definition cmd_parser (parsed : Namespace) : exn + Namespace :=
  let args := parsed in
  if negb (Py.str_in (Namespace.attention_type args) ["official"; "senet"]) then
    inl (ValueError (attention_type_message args))
  else inr args.

(** ** The outside world: objects, events, traces *)

(** The two schedule functions imported from [models.tf_fn.optim_utils]. *)
Inductive scheduler : Type :=
| cifar10_scheduler
| keras_lr_scheduler.

(** Model objects, named after the call that builds them.  [KerasModel core]
    is the [tf.keras.Model] of lines 155-160 that casts and pads the input and
    applies [core]. *)
Inductive model : Type :=
| create_model (name : string) (classes : Z)
| create_model_cifar10 (resnet_depth resnet_version : Z)
| KerasModel (core : model).

(** [create_optimizer(name, learning_rate=, weight_decay=, momentum=)]. *)
Inductive optimizer : Type :=
| create_optimizer (name : string) (lr wd mom : float).

(** The Keras callbacks the driver constructs. *)
Inductive callback : Type :=
| CSVLogger (filename : string)
| LearningRateScheduler (schedule : scheduler)
| ModelCheckpoint (filepath : string)
| TensorBoard (log_dir : string).

(** Arrays: the four that [load_cifar10()] returns, and the four parts that
    [train_test_split(x, y, test_size=, random_state=)] returns, in the order
    scikit-learn returns them. *)
Inductive split_part : Type :=
| x_train_part
| x_val_part
| y_train_part
| y_val_part.

Inductive array : Type :=
| cifar10_x_train
| cifar10_y_train
| cifar10_x_test
| cifar10_y_test
| train_test_split (part : split_part) (x y : array)
    (test_size : float) (random_state : Z).

(** One entry per call that leaves the script. *)
Inductive event : Type :=
| PrintArgs (args : Namespace)                  (* line 98 *)
| Print (line : string)                         (* lines 238, 243 *)
| LoadCifar10Sequence (args : Namespace)        (* lines 124-132 *)
| SetRandomSeed (s : Z)                         (* lines 135-141 *)
| FirstTrainBatch                               (* line 144 *)
| Build (m : model)                             (* lines 152, 160, 172, 177 *)
| Makedirs (path : string)                      (* lines 187, 188 *)
| OpenWrite (path : string)                     (* line 189 *)
| JsonDump (vars : Namespace) (path : string)   (* line 190 *)
| NewOptimizer (o : optimizer)                  (* line 192 *)
| New (c : callback)                            (* lines 196, 209, 211, 216 *)
| Compile (m : model) (o : optimizer)           (* line 204 *)
| LoadCifar10                                   (* line 240 *)
| TrainTestSplit (test_size : float) (random_state : Z)   (* line 244 *)
| Fit (m : model) (x y : array) (batch epoch_count : Z)
      (validation_data : array * array) (callbacks : list callback). (* line 248 *)

(** The driver's monad. *)
Definition run (A : Type) : Type := (list event * (exn + A))%type.

Definition trace {A : Type} (r : run A) : list event := fst r.
Definition outcome {A : Type} (r : run A) : exn + A := snd r.

Definition run_bind {A B : Type} (m : run A) (k : A -> run B) : run B :=
  match m with
  | (t, inl e) => (t, inl e)
  | (t, inr a) => let (t', r) := k a in ((t ++ t')%list, r)
  end.

#[global] Instance Monad_run : Monad run :=
  {| ret := fun _ a => (nil, inr a);
     bind := fun _ _ => run_bind |}.

#[global] Instance MonadExc_run : MonadExc exn run :=
  {| raise := fun _ e => (nil, inl e);
     catch := fun _ m h =>
       match m with
       | (t, inl e) => let (t', r) := h e in ((t ++ t')%list, r)
       | ok => ok
       end |}.

(** Perform an outside call. *)
Definition emit (e : event) : run unit := ([e], inr tt).

(** Lift a check that either raises or returns. *)
Definition lift {A : Type} (r : exn + A) : run A := (nil, r).

(** Read the local variable [name]. *)
Definition read_local {A : Type} (name : string) (v : option A) : run A :=
  match v with
  | Some a => ret a
  | None => raise (UnboundLocalError name)
  end.

(** What the script reads from its environment. *)
Record environ : Type := mkEnviron {
  HOME : string;   (* the home directory [expanduser] substitutes *)
  now : string     (* [datetime.now().strftime("%Y%m%d-%H%M%S")] at line 181 *)
}.

(** ** [main] *)

(** Lines 112-115. *)
Definition resnet_family : list string :=
  ["ResNet18"; "ResNet34"; "ResNet50"; "ResNet101"; "ResNet152"].

Definition available_models : list string :=
  (["LeNet5"; "AttentionLeNet5"; "LeCunLeNet5"] ++ resnet_family)%list.

(** Lines 106-109: [lr_schedule_fn] is assigned on two branches only. *)
Definition select_lr_schedule_fn (lr_schedule : string) : option scheduler :=
  if (lr_schedule =? "cifar10_scheduler")%string then Some cifar10_scheduler
  else if (lr_schedule =? "keras_lr_scheduler")%string then Some keras_lr_scheduler
  else None.

(** Lines 117-121: [--attention] rebinds [model_name]. *)
Definition attention_model_name (args : Namespace) (model_name : string) : string :=
  if Namespace.attention args then
    if (Namespace.attention_type args =? "senet")%string
    then "AttentionLeNet5_SeNet"
    else if (Namespace.attention_type args =? "official")%string
    then "AttentionLeNet5_Official"
    else model_name
  else model_name.

(** The message of line 149. *)
Definition model_name_message (args : Namespace) : string :=
  "args.model_name " ++ Namespace.model_name args ++ " NOT in "
  ++ Py.repr_str_list available_models.

(** Lines 146-178: the model is set up from the dataset name.  The block
    returns the three locals it may rebind: [args] (which gains [depth]),
    [model] (left unassigned on one path) and [model_name]. *)
Definition setup_model (args : Namespace) (model_name : string)
  : run (Namespace * option model * string) :=
  if (Namespace.dataset args =? "mnist")%string then
    if negb (Py.str_in (Namespace.model_name args) available_models) then
      raise (ValueError (model_name_message args))
    else if Py.str_in model_name resnet_family then
      let model_core := create_model model_name (Namespace.num_classes args) in
      emit (Build model_core) ;;
      let model := KerasModel model_core in
      emit (Build model) ;;
      ret (args, Some model, model_name)
    else ret (args, None, model_name)
  else if (Namespace.dataset args =? "cifar10")%string then
    let version := 1 in
    let n := Namespace.n args in
    let depth :=
      if version =? 1 then Some (n * 6 + 2)
      else if version =? 2 then Some (n * 9 + 2)
      else None in
    depth <- read_local "depth" depth ;;
    let args := Namespace.set_depth args depth in
    let model := create_model_cifar10 depth (Namespace.version args) in
    emit (Build model) ;;
    let model_name :=
      "ResNet" ++ Py.str_int depth ++ "v" ++ Py.str_int version ++ "_CIFAR10" in
    ret (args, Some model, model_name)
  else
    let model := create_model model_name (Namespace.num_classes args) in
    emit (Build model) ;;
    ret (args, Some model, model_name).

Section Driver.

(** [str(x)] of a float, which is what [f"{x}"] prints (the interpreter's
    shortest round-trip formatting). *)
Variable str_float : float -> string.

(** Lines 236-253: load the arrays, split off a validation part when asked
    to, and fit.  [x_val] and [y_val] exist only after the split. *)
Definition fit_model (args : Namespace) (model : model) (batch_size epochs : Z)
    (callbacks : list callback) : run unit :=
  let data_augmentation := false in
  if negb data_augmentation then
    emit (Print "Not using data augmentation.") ;;
    emit LoadCifar10 ;;
    let x_train := cifar10_x_train in
    let y_train := cifar10_y_train in
    let x_test := cifar10_x_test in
    let y_test := cifar10_y_test in
    '(x_train, x_val, y_train, y_val) <-
      (if (0 <? Namespace.validation_split args)%float then
         emit (Print ("Using validation_split: "
                      ++ str_float (Namespace.validation_split args) ++ ".")) ;;
         let test_size := Namespace.validation_split args in
         let random_state := Namespace.seed args in
         emit (TrainTestSplit test_size random_state) ;;
         let part p := train_test_split p x_train y_train test_size random_state in
         ret (part x_train_part, Some (part x_val_part),
              part y_train_part, Some (part y_val_part))
       else ret (x_train, None, y_train, None)) ;;
    emit (Fit model x_train y_train batch_size epochs (x_test, y_test) callbacks)
  else ret tt.

(** Lines 95-253. *)
Definition main (env : environ) (parsed : Namespace) : run unit :=
  args <- lift (cmd_parser parsed) ;;
  emit (PrintArgs args) ;;
  let model_name := Namespace.model_name args in
  let dataset := Namespace.dataset args in
  let batch_size := Namespace.batch_size args in
  let epochs := Namespace.epochs args in
  let learning_rate := Namespace.learning_rate args in
  let optimizer_name := Namespace.optimizer_name args in
  let lr_schedule := Namespace.lr_schedule args in
  let lr_schedule_fn := select_lr_schedule_fn lr_schedule in
  let model_name := attention_model_name args model_name in
  emit (LoadCifar10Sequence args) ;;
  emit (SetRandomSeed (Namespace.seed args)) ;;
  emit FirstTrainBatch ;;
  '(args, model, model_name) <- setup_model args model_name ;;
  let date_time := now env in
  let prefix := Py.os_path_join "~" ["Documents"; "DeepLearningData"] in
  let subfix :=
    Py.os_path_join dataset
      [model_name;
       "b" ++ Py.str_int batch_size ++ "-e" ++ Py.str_int epochs
       ++ "-lr" ++ str_float learning_rate;
       optimizer_name; date_time] in
  let ckpt_dir :=
    Py.expanduser (HOME env) (Py.os_path_join prefix [subfix; "ckpts"]) in
  let log_dir :=
    Py.expanduser (HOME env) (Py.os_path_join prefix [subfix; "logs"]) in
  emit (Makedirs ckpt_dir) ;;
  emit (Makedirs log_dir) ;;
  let json_file := Py.os_path_join log_dir ["config.json"] in
  emit (OpenWrite json_file) ;;
  emit (JsonDump args json_file) ;;
  let optimizer :=
    create_optimizer (Namespace.optimizer_name args)
      (Namespace.learning_rate args) (Namespace.weight_decay args)
      (Namespace.momentum args) in
  emit (NewOptimizer optimizer) ;;
  lr_schedule_fn <- read_local "lr_schedule_fn" lr_schedule_fn ;;
  let lr_scheduler := LearningRateScheduler lr_schedule_fn in
  emit (New lr_scheduler) ;;
  model <- read_local "model" model ;;
  emit (Compile model optimizer) ;;
  let csv_logger := CSVLogger (Py.os_path_join log_dir ["training.log.csv"]) in
  emit (New csv_logger) ;;
  let tensorboard_callback := TensorBoard log_dir in
  emit (New tensorboard_callback) ;;
  let ckpt_filename :=
    model_name
    ++ "-epoch-{epoch:03d}-categorical_accuracy-{categorical_accuracy:.4f}.h5" in
  let ckpt_filepath := Py.os_path_join ckpt_dir [ckpt_filename] in
  let checkpoint_callback := ModelCheckpoint ckpt_filepath in
  emit (New checkpoint_callback) ;;
  let callbacks :=
    [csv_logger; lr_scheduler; checkpoint_callback; tensorboard_callback] in
  fit_model args model batch_size epochs callbacks.

End Driver.

(** ** Vocabulary of the properties *)

(** The exception a run ended with, if any. *)
Definition raised {A : Type} (r : run A) : option exn :=
  match outcome r with
  | inl e => Some e
  | inr _ => None
  end.

(** Reading a trace: the directories created, the configuration dumps, the
    models built, the [model.fit] calls. *)
Definition makedirs_of (tr : list event) : list string :=
  flat_map (fun e => match e with Makedirs p => [p] | _ => [] end) tr.

Definition config_dumps (tr : list event) : list (Namespace * string) :=
  flat_map (fun e => match e with JsonDump a p => [(a, p)] | _ => [] end) tr.

Definition builds_of (tr : list event) : list model :=
  flat_map (fun e => match e with Build m => [m] | _ => [] end) tr.

(** Compiling and fitting: the events of the training stage. *)
Definition is_training (e : event) : bool :=
  match e with
  | Compile _ _ | Fit _ _ _ _ _ _ _ => true
  | _ => false
  end.

(** An array that is, or is cut from, the validation part of a split. *)
Fixpoint from_validation_part (a : array) : bool :=
  match a with
  | train_test_split p x y _ _ =>
      match p with
      | x_val_part | y_val_part => true
      | _ => from_validation_part x || from_validation_part y
      end
  | _ => false
  end.

(** The two guards a run has to pass before it reaches line 181. *)
Definition accepted_attention_type (args : Namespace) : bool :=
  Py.str_in (Namespace.attention_type args) ["official"; "senet"].

Definition rejected_model_name (args : Namespace) : bool :=
  (Namespace.dataset args =? "mnist")%string
  && negb (Py.str_in (Namespace.model_name args) available_models).

Definition reaches_paths (args : Namespace) : bool :=
  accepted_attention_type args && negb (rejected_model_name args).

(** The value of the local [model_name] at line 184: the CIFAR-10 path
    overwrites it, every other path keeps what [--attention] left. *)
Definition path_model_name (args : Namespace) : string :=
  if (Namespace.dataset args =? "cifar10")%string then
    "ResNet" ++ Py.str_int (Namespace.n args * 6 + 2) ++ "v1_CIFAR10"
  else attention_model_name args (Namespace.model_name args).

(** The record [vars(args)] holds at line 190. *)
Definition config_record (args : Namespace) : Namespace :=
  if (Namespace.dataset args =? "cifar10")%string
  then Namespace.set_depth args (Namespace.n args * 6 + 2)
  else args.

Section Paths.

Variable str_float : float -> string.

(** The run directory as the specification words it: under the artifacts
    prefix, the dataset name, the model name, the
    [b{batch_size}-e{epochs}-lr{learning_rate}] triple, the optimizer name and
    the timestamp are joined, and [leaf] is [ckpts] or [logs]. *)
Definition run_dir (home dataset_name model : string) (batch epoch_count : Z)
    (lr : float) (optimizer timestamp leaf : string) : string :=
  Py.expanduser home
    (Py.os_path_join (Py.os_path_join "~" ["Documents"; "DeepLearningData"])
       [Py.os_path_join dataset_name
          [model;
           "b" ++ Py.str_int batch ++ "-e" ++ Py.str_int epoch_count
           ++ "-lr" ++ str_float lr;
           optimizer; timestamp];
        leaf]).

(** The same with the values of one run. *)
Definition run_dir_of (env : environ) (args : Namespace) (leaf : string) : string :=
  run_dir (HOME env) (Namespace.dataset args) (path_model_name args)
    (Namespace.batch_size args) (Namespace.epochs args)
    (Namespace.learning_rate args) (Namespace.optimizer_name args)
    (now env) leaf.

(** The literal layout: every component separated by one slash. *)
Definition run_dir_layout (home dataset_name model : string)
    (batch epoch_count : Z) (lr : float) (optimizer timestamp leaf : string)
  : string :=
  home ++ "/Documents/DeepLearningData/" ++ dataset_name ++ "/" ++ model
  ++ "/b" ++ Py.str_int batch ++ "-e" ++ Py.str_int epoch_count
  ++ "-lr" ++ str_float lr ++ "/" ++ optimizer ++ "/" ++ timestamp
  ++ "/" ++ leaf.

End Paths.

(** A name that [os.path.join] treats as one plain component: not empty, no
    slash at either end. *)
Definition plain_component (s : string) : bool :=
  negb (s =? "")%string && negb (Py.starts_with_sep s) && negb (Py.ends_with_sep s).

(** The name of the checkpoint files (line 214). *)
Definition ckpt_filename_of (args : Namespace) : string :=
  path_model_name args
  ++ "-epoch-{epoch:03d}-categorical_accuracy-{categorical_accuracy:.4f}.h5".

(** ** The run, stage by stage

    What [main] does, written out as the trace of each stage and the place
    where the run stops.  [main_staged] below proves that this is [main]. *)

(** Lines 98-144: what happens before the model is set up. *)
Definition prelude (args : Namespace) : list event :=
  [PrintArgs args; LoadCifar10Sequence args;
   SetRandomSeed (Namespace.seed args); FirstTrainBatch].

(** The model the set-up block binds to [model], if it binds one. *)
Definition built_model (args : Namespace) : option model :=
  let name := attention_model_name args (Namespace.model_name args) in
  if (Namespace.dataset args =? "mnist")%string then
    if Py.str_in name resnet_family
    then Some (KerasModel (create_model name (Namespace.num_classes args)))
    else None
  else if (Namespace.dataset args =? "cifar10")%string then
    Some (create_model_cifar10 (Namespace.n args * 6 + 2) (Namespace.version args))
  else Some (create_model name (Namespace.num_classes args)).

(** The model objects the set-up block builds. *)
Definition builds (args : Namespace) : list event :=
  match built_model args with
  | Some (KerasModel core) => [Build core; Build (KerasModel core)]
  | Some m => [Build m]
  | None => []
  end.

Definition optimizer_of (args : Namespace) : optimizer :=
  create_optimizer (Namespace.optimizer_name args)
    (Namespace.learning_rate args) (Namespace.weight_decay args)
    (Namespace.momentum args).

Section Stages.

Variable str_float : float -> string.
Variable env : environ.
Variable args : Namespace.

(** Lines 187-192: directories, configuration dump, optimizer. *)
Definition artifacts : list event :=
  [Makedirs (run_dir_of str_float env args "ckpts");
   Makedirs (run_dir_of str_float env args "logs");
   OpenWrite (Py.os_path_join (run_dir_of str_float env args "logs")
                ["config.json"]);
   JsonDump (config_record args)
     (Py.os_path_join (run_dir_of str_float env args "logs") ["config.json"]);
   NewOptimizer (optimizer_of args)].

Definition csv_logger_of : callback :=
  CSVLogger (Py.os_path_join (run_dir_of str_float env args "logs")
               ["training.log.csv"]).

Definition tensorboard_of : callback :=
  TensorBoard (run_dir_of str_float env args "logs").

Definition checkpoint_of : callback :=
  ModelCheckpoint (Py.os_path_join (run_dir_of str_float env args "ckpts")
                     [ckpt_filename_of args]).

(** Line 223. *)
Definition callbacks_of (fn : scheduler) : list callback :=
  [csv_logger_of; LearningRateScheduler fn; checkpoint_of; tensorboard_of].

(** Lines 204-221: compile, then the three remaining callbacks. *)
Definition compile_events (m : model) : list event :=
  [Compile m (optimizer_of args); New csv_logger_of; New tensorboard_of;
   New checkpoint_of].

(** Lines 238-253. *)
Definition fit_events (m : model) (fn : scheduler) : list event :=
  Print "Not using data augmentation." :: LoadCifar10 ::
  (if (0 <? Namespace.validation_split args)%float then
     [Print ("Using validation_split: "
             ++ str_float (Namespace.validation_split args) ++ ".");
      TrainTestSplit (Namespace.validation_split args) (Namespace.seed args);
      Fit m
        (train_test_split x_train_part cifar10_x_train cifar10_y_train
           (Namespace.validation_split args) (Namespace.seed args))
        (train_test_split y_train_part cifar10_x_train cifar10_y_train
           (Namespace.validation_split args) (Namespace.seed args))
        (Namespace.batch_size args) (Namespace.epochs args)
        (cifar10_x_test, cifar10_y_test) (callbacks_of fn)]
   else
     [Fit m cifar10_x_train cifar10_y_train
        (Namespace.batch_size args) (Namespace.epochs args)
        (cifar10_x_test, cifar10_y_test) (callbacks_of fn)]).

(** The whole run. *)
Definition staged : run unit :=
  if negb (accepted_attention_type args) then
    ([], inl (ValueError (attention_type_message args)))
  else if rejected_model_name args then
    (prelude args, inl (ValueError (model_name_message args)))
  else
    match select_lr_schedule_fn (Namespace.lr_schedule args) with
    | None =>
        ((prelude args ++ builds args ++ artifacts)%list,
         inl (UnboundLocalError "lr_schedule_fn"))
    | Some fn =>
        match built_model args with
        | None =>
            ((prelude args ++ builds args ++ artifacts
              ++ [New (LearningRateScheduler fn)])%list,
             inl (UnboundLocalError "model"))
        | Some m =>
            ((prelude args ++ builds args ++ artifacts
              ++ [New (LearningRateScheduler fn)]
              ++ compile_events m ++ fit_events m fn)%list,
             inr tt)
        end
    end.

End Stages.

(** What "created before use" asks of an event [e] that comes after the
    events [pre]: if [e] opens, or is set up to write, a file of the log or
    of the checkpoint directory, then that directory was created by an
    earlier [makedirs]; and when [model.fit] starts, both were. *)
Definition created_before_use (log_dir ckpt_dir ckpt_filename : string)
    (pre : list event) (e : event) : Prop :=
  match e with
  | OpenWrite p | JsonDump _ p =>
      p = Py.os_path_join log_dir ["config.json"] /\ In (Makedirs log_dir) pre
  | New (CSVLogger p) =>
      p = Py.os_path_join log_dir ["training.log.csv"]
      /\ In (Makedirs log_dir) pre
  | New (TensorBoard p) => p = log_dir /\ In (Makedirs log_dir) pre
  | New (ModelCheckpoint p) =>
      p = Py.os_path_join ckpt_dir [ckpt_filename]
      /\ In (Makedirs ckpt_dir) pre
  | Fit _ _ _ _ _ _ _ =>
      In (Makedirs log_dir) pre /\ In (Makedirs ckpt_dir) pre
  | _ => True
  end.

(** A path that [join2] extends with exactly one slash: not empty, no
    slash at its end. *)
Definition tidy (s : string) : Prop := s <> "" /\ Py.ends_with_sep s = false.

(** ** Sample runs *)

(** A stand-in for [str] on the floats the samples use. *)
Definition sample_str_float (x : float) : string :=
  if (x =? 0.1)%float then "0.1"
  else if (x =? 0.2)%float then "0.2"
  else "0.0".

Definition sample_env : environ :=
  {| HOME := "/home/user"; now := "20201104-205700" |}.

(** The namespace of the command line
    [--dataset ds --model_name mn --lr_schedule lr --version v --attention att
     --attention_type ty], every other option at its default, the drawn seed
    being 42. *)
Definition invocation (ds mn lr : string) (v : Z) (att : bool) (ty : string)
  : Namespace :=
  {| Namespace.dataset := ds; Namespace.num_classes := 10;
     Namespace.model_name := mn; Namespace.n := 3; Namespace.version := v;
     Namespace.batch_size := 32; Namespace.seed := 42;
     Namespace.validation_split := 0.2%float; Namespace.norm := false;
     Namespace.epochs := 100; Namespace.optimizer_name := "SGD";
     Namespace.learning_rate := 0.1%float;
     Namespace.weight_decay := 0.0001%float;
     Namespace.momentum := 0.9%float; Namespace.lr_schedule := lr;
     Namespace.attention := att; Namespace.attention_type := ty;
     Namespace.depth := None |}.

(** ** Further vocabulary *)

Definition is_Fit (e : event) : bool :=
  match e with
  | Fit _ _ _ _ _ _ _ => true
  | _ => false
  end.

Definition is_TrainTestSplit (e : event) : bool :=
  match e with
  | TrainTestSplit _ _ => true
  | _ => false
  end.

(** The seed an event hands to a random number generator, if it hands one. *)
Definition seed_used (e : event) : option Z :=
  match e with
  | SetRandomSeed s => Some s
  | TrainTestSplit _ r => Some r
  | _ => None
  end.

(** In [l], some occurrence of [b] comes after an occurrence of [a]. *)
Definition precedes (a b : event) (l : list event) : Prop :=
  exists before after, l = (before ++ b :: after)%list /\ In a before.

(** [--validation_split v] on top of [args]. *)
Definition with_validation_split (args : Namespace) (v : float) : Namespace :=
  {| Namespace.dataset := Namespace.dataset args;
     Namespace.num_classes := Namespace.num_classes args;
     Namespace.model_name := Namespace.model_name args;
     Namespace.n := Namespace.n args;
     Namespace.version := Namespace.version args;
     Namespace.batch_size := Namespace.batch_size args;
     Namespace.seed := Namespace.seed args;
     Namespace.validation_split := v;
     Namespace.norm := Namespace.norm args;
     Namespace.epochs := Namespace.epochs args;
     Namespace.optimizer_name := Namespace.optimizer_name args;
     Namespace.learning_rate := Namespace.learning_rate args;
     Namespace.weight_decay := Namespace.weight_decay args;
     Namespace.momentum := Namespace.momentum args;
     Namespace.lr_schedule := Namespace.lr_schedule args;
     Namespace.attention := Namespace.attention args;
     Namespace.attention_type := Namespace.attention_type args;
     Namespace.depth := Namespace.depth args |}.

(** ** Proof tools *)

(** One case split on the next test [main] runs. *)
Ltac case_step :=
  match goal with
  | |- context [Py.str_in ?x ?l] => destruct (Py.str_in x l) eqn:?
  | |- context [String.eqb ?a ?b] => destruct (String.eqb_spec a b)
  | |- context [select_lr_schedule_fn ?s] =>
      destruct (select_lr_schedule_fn s) eqn:?
  | |- context [PrimFloat.ltb ?a ?b] => destruct (PrimFloat.ltb a b) eqn:?
  end.

(** Membership in a list that is written out. *)
Ltac in_list := cbn; repeat (first [left; reflexivity | right]).

(** Follow the staged run of [parsed] through its stopping places;
    [staged_eq] is the equation between [main] and [staged]. *)
Ltac staged_cases staged_eq parsed :=
  rewrite ?staged_eq;
  unfold staged, builds, fit_events, compile_events, artifacts, prelude;
  destruct (accepted_attention_type parsed) eqn:Hacc; cbn [negb];
  [ destruct (rejected_model_name parsed) eqn:Hrej;
    [ | destruct (select_lr_schedule_fn (Namespace.lr_schedule parsed))
          as [fn |] eqn:Hfn;
        destruct (built_model parsed) as [[nm c | d v | core] |] eqn:Hm ]
  | ].

(** ** The command line: [string2bool] and [cmd_parser] *)

Lemma str_in_two (x a b : string) :
  Py.str_in x [a; b] = ((x =? a)%string || (x =? b)%string).
Proof. unfold Py.str_in; cbn. now rewrite orb_false_r. Qed.

Lemma string2bool_True : string2bool "True" = inr (PyBool true).
Proof. reflexivity. Qed.

Lemma string2bool_False : string2bool "False" = inr (PyBool false).
Proof. reflexivity. Qed.

Lemma string2bool_other (s : string) :
  s <> "True" -> s <> "False" ->
  exists msg, string2bool s = inl (ArgumentTypeError msg).
Proof.
  intros HT HF. unfold string2bool. rewrite str_in_two.
  destruct (String.eqb_spec s "False") as [-> | _]; [now elim HF |].
  destruct (String.eqb_spec s "True") as [-> | _]; [now elim HT |].
  cbn. eexists. reflexivity.
Qed.

Lemma string2bool_returns (s : string) (v : pyval) :
  string2bool s = inr v ->
  (s = "True" /\ v = PyBool true) \/ (s = "False" /\ v = PyBool false).
Proof.
  unfold string2bool. rewrite str_in_two.
  destruct (String.eqb_spec s "False") as [-> | HF].
  - cbn. intros [= <-]. right. split; reflexivity.
  - destruct (String.eqb_spec s "True") as [-> | HT].
    + cbn. intros [= <-]. left. split; reflexivity.
    + cbn. discriminate.
Qed.

(** C2.  [string2bool] returns [True] on ["True"] and [False] on ["False"];
    on every other string it raises (an [argparse.ArgumentTypeError]); and
    whenever it returns, the input was one of the two strings and the value
    is the matching boolean, so the fall-through [None] is never returned. *)
Theorem string2bool_accepts_exactly_True_and_False :
  string2bool "True" = inr (PyBool true) /\
  string2bool "False" = inr (PyBool false) /\
  (forall s : string, s <> "True" -> s <> "False" ->
     exists msg, string2bool s = inl (ArgumentTypeError msg)) /\
  (forall (s : string) (v : pyval), string2bool s = inr v ->
     (s = "True" /\ v = PyBool true) \/ (s = "False" /\ v = PyBool false)).
Proof.
  split; [exact string2bool_True |].
  split; [exact string2bool_False |].
  split; [exact string2bool_other | exact string2bool_returns].
Qed.

(** C2, at the input ["true"]: the lower-case spelling is rejected. *)
Lemma string2bool_rejects_lowercase_true :
  exists msg, string2bool "true" = inl (ArgumentTypeError msg).
Proof.
  apply (proj1 (proj2 (proj2 string2bool_accepts_exactly_True_and_False)));
    discriminate.
Defined.

Lemma cmd_parser_rejects (parsed : Namespace) :
  accepted_attention_type parsed = false ->
  exists msg, cmd_parser parsed = inl (ValueError msg).
Proof.
  unfold accepted_attention_type, cmd_parser. intros ->. cbn. eexists. reflexivity.
Qed.

Lemma cmd_parser_accepts (parsed : Namespace) :
  accepted_attention_type parsed = true -> cmd_parser parsed = inr parsed.
Proof.
  unfold accepted_attention_type, cmd_parser. intros ->. reflexivity.
Qed.

(** ** The model set-up block *)

Lemma setup_model_mnist_rejects (args : Namespace) (name : string) :
  rejected_model_name args = true ->
  exists msg, setup_model args name = ([], inl (ValueError msg)).
Proof.
  unfold rejected_model_name, setup_model.
  intros [-> Hin]%andb_prop. rewrite Hin. eexists. reflexivity.
Qed.

Lemma setup_model_mnist_resnet (args : Namespace) (name : string) :
  Namespace.dataset args = "mnist" ->
  Py.str_in (Namespace.model_name args) available_models = true ->
  Py.str_in name resnet_family = true ->
  setup_model args name =
    ([Build (create_model name (Namespace.num_classes args));
      Build (KerasModel (create_model name (Namespace.num_classes args)))],
     inr (args,
          Some (KerasModel (create_model name (Namespace.num_classes args))),
          name)).
Proof.
  intros Hd Ha Hr. unfold setup_model. rewrite Hd, Ha, Hr. reflexivity.
Qed.


(** On the CIFAR-10 path the depth is [n * 6 + 2] whatever [args.version]
    is: the block tests its own local [version], which is the constant 1, and
    passes [args.version] on to [create_model_cifar10] untouched. *)
Lemma setup_model_cifar10 (args : Namespace) (name : string) :
  Namespace.dataset args = "cifar10" ->
  setup_model args name =
    ([Build (create_model_cifar10 (Namespace.n args * 6 + 2)
               (Namespace.version args))],
     inr (Namespace.set_depth args (Namespace.n args * 6 + 2),
          Some (create_model_cifar10 (Namespace.n args * 6 + 2)
                  (Namespace.version args)),
          "ResNet" ++ Py.str_int (Namespace.n args * 6 + 2) ++ "v1_CIFAR10")).
Proof.
  intros Hd. unfold setup_model. rewrite Hd. reflexivity.
Qed.

Lemma setup_model_other (args : Namespace) (name : string) :
  Namespace.dataset args <> "mnist" ->
  Namespace.dataset args <> "cifar10" ->
  setup_model args name =
    ([Build (create_model name (Namespace.num_classes args))],
     inr (args, Some (create_model name (Namespace.num_classes args)), name)).
Proof.
  intros H1 H2. unfold setup_model.
  destruct (String.eqb_spec (Namespace.dataset args) "mnist"); [contradiction |].
  destruct (String.eqb_spec (Namespace.dataset args) "cifar10"); [contradiction |].
  reflexivity.
Qed.

(** C1, at the failing input [--dataset cifar10 --n 3 --version 2]: the
    depth is 20, not 29, the model is built as
    [create_model_cifar10(depth=20, version=2)], and the run is named
    [ResNet20v1_CIFAR10]. *)
Theorem depth_is_20_for_n_3_version_2 :
  setup_model (invocation "cifar10" "NoModel" "no_schedule" 2 false "official")
    "NoModel"
  = ([Build (create_model_cifar10 20 2)],
     inr (Namespace.set_depth
            (invocation "cifar10" "NoModel" "no_schedule" 2 false "official") 20,
          Some (create_model_cifar10 20 2),
          "ResNet20v1_CIFAR10")).
Proof. rewrite setup_model_cifar10 by reflexivity. reflexivity. Qed.

(** ** Paths *)

Lemma append_assoc (a b c : string) : ((a ++ b) ++ c = a ++ b ++ c)%string.
Proof. induction a as [| x a IH]; cbn; [reflexivity | now rewrite IH]. Qed.

Lemma append_nonempty_r (a b : string) : b <> "" -> (a ++ b)%string <> "".
Proof. destruct a; cbn; [auto | discriminate]. Qed.

Lemma ends_with_sep_cons (c : ascii) (s : string) :
  s <> "" -> Py.ends_with_sep (String c s) = Py.ends_with_sep s.
Proof. destruct s; [contradiction | reflexivity]. Qed.

Lemma ends_with_sep_append (a b : string) :
  b <> "" -> Py.ends_with_sep (a ++ b) = Py.ends_with_sep b.
Proof.
  intros Hb. induction a as [| x a IH]; [reflexivity |].
  cbn [String.append]. rewrite ends_with_sep_cons; [exact IH |].
  now apply append_nonempty_r.
Qed.

Lemma starts_with_sep_append (a b : string) :
  a <> "" -> Py.starts_with_sep (a ++ b) = Py.starts_with_sep a.
Proof. destruct a; [contradiction | reflexivity]. Qed.

Lemma rstrip_sep_id (s : string) :
  Py.ends_with_sep s = false -> Py.rstrip_sep s = s.
Proof.
  induction s as [| c s IH]; [reflexivity |].
  destruct s as [| d s].
  - cbn. now intros ->.
  - intros H. change (Py.ends_with_sep (String d s) = false) in H.
    specialize (IH H). cbn [Py.rstrip_sep] in *. rewrite IH. reflexivity.
Qed.

Lemma plain_component_tidy (s : string) :
  plain_component s = true -> tidy s /\ Py.starts_with_sep s = false.
Proof.
  unfold plain_component, tidy.
  destruct (String.eqb_spec s ""); [discriminate |].
  destruct (Py.starts_with_sep s); [discriminate |].
  destruct (Py.ends_with_sep s); [discriminate |]. auto.
Qed.

Lemma join2_tidy (a b : string) :
  tidy a -> tidy b -> Py.starts_with_sep b = false ->
  Py.join2 a b = (a ++ "/" ++ b)%string /\ tidy (a ++ "/" ++ b).
Proof.
  intros [Ha Ea] [Hb Eb] Sb. unfold Py.join2. rewrite Sb, Ea.
  destruct (String.eqb_spec a ""); [contradiction |]. cbn [orb].
  split; [reflexivity |]. split.
  - destruct a; [contradiction | discriminate].
  - rewrite ends_with_sep_append by discriminate.
    change ("/" ++ b)%string with (String "/" b).
    now rewrite ends_with_sep_cons.
Qed.

Lemma expanduser_home (home rest : string) :
  Py.ends_with_sep home = false ->
  Py.expanduser home ("~/" ++ rest) = (home ++ "/" ++ rest)%string.
Proof.
  intros H. cbn. rewrite (rstrip_sep_id _ H). now destruct home.
Qed.

(** When the names are plain components, the run directory is the literal
    [home/Documents/DeepLearningData/dataset/model/b..-e..-lr../optimizer/
    timestamp/leaf]. *)
Lemma run_dir_is_laid_out_plainly (str_float : float -> string)
    (home dataset_name model : string) (batch epoch_count : Z) (lr : float)
    (optimizer timestamp leaf : string) :
  Py.ends_with_sep home = false ->
  plain_component dataset_name = true ->
  plain_component model = true ->
  Py.ends_with_sep (str_float lr) = false ->
  plain_component optimizer = true ->
  plain_component timestamp = true ->
  plain_component leaf = true ->
  run_dir str_float home dataset_name model batch epoch_count lr optimizer
    timestamp leaf
  = run_dir_layout str_float home dataset_name model batch epoch_count lr
      optimizer timestamp leaf.
Proof.
  intros Hh [Td Sd]%plain_component_tidy [Tm Sm]%plain_component_tidy Hlr
    [To So]%plain_component_tidy [Tt St]%plain_component_tidy
    [Tl Sl]%plain_component_tidy.
  unfold run_dir, run_dir_layout, Py.os_path_join. cbn [fold_left].
  set (triple := ("b" ++ Py.str_int batch ++ "-e" ++ Py.str_int epoch_count
                  ++ "-lr" ++ str_float lr)%string).
  assert (Ttr : tidy triple /\ Py.starts_with_sep triple = false).
  { split; [split; [discriminate |] | reflexivity].
    unfold triple.
    repeat rewrite ends_with_sep_append
      by (repeat first [now (cbn; discriminate) | apply append_nonempty_r]).
    cbn. now destruct (str_float lr). }
  destruct Ttr as [Ttr Str].
  destruct (join2_tidy _ _ Td Tm Sm) as [-> T1].
  destruct (join2_tidy _ _ T1 Ttr Str) as [-> T2].
  destruct (join2_tidy _ _ T2 To So) as [-> T3].
  destruct (join2_tidy _ _ T3 Tt St) as [-> T4].
  change (Py.join2 (Py.join2 "~" "Documents") "DeepLearningData")
    with "~/Documents/DeepLearningData".
  assert (Tp : tidy "~/Documents/DeepLearningData")
    by (split; [discriminate | reflexivity]).
  assert (S4 : Py.starts_with_sep
                 ((((dataset_name ++ "/" ++ model) ++ "/" ++ triple) ++ "/"
                   ++ optimizer) ++ "/" ++ timestamp) = false).
  { rewrite !starts_with_sep_append;
      [exact Sd | apply Td | apply T1 | apply T2 | apply T3]. }
  destruct (join2_tidy _ _ Tp T4 S4) as [-> T5].
  destruct (join2_tidy _ _ T5 Tl Sl) as [-> _].
  change ("~/Documents/DeepLearningData")
    with ("~/" ++ "Documents/DeepLearningData")%string.
  rewrite !append_assoc. rewrite (expanduser_home _ _ Hh).
  unfold triple. rewrite !append_assoc. reflexivity.
Qed.

(** ** Runs of [main] *)

Arguments Py.str_in : simpl never.
Arguments Py.os_path_join : simpl never.
Arguments Py.expanduser : simpl never.
Arguments Py.str_int : simpl never.
Arguments Py.repr_str_list : simpl never.
Arguments String.append : simpl never.
Arguments select_lr_schedule_fn : simpl never.
Arguments attention_model_name : simpl never.
Arguments available_models : simpl never.
Arguments resnet_family : simpl never.
Arguments attention_type_message : simpl never.
Arguments model_name_message : simpl never.

(** [main], path by path, is the staged run. *)
Lemma main_staged (str_float : float -> string) (env : environ)
    (parsed : Namespace) :
  main str_float env parsed = staged str_float env parsed.
Proof.
  unfold staged, builds, built_model, artifacts, compile_events, fit_events,
    callbacks_of, csv_logger_of, tensorboard_of, checkpoint_of,
    ckpt_filename_of, optimizer_of, prelude, run_dir_of, run_dir,
    path_model_name, config_record, accepted_attention_type,
    rejected_model_name.
  unfold main, cmd_parser, setup_model, fit_model.
  cbn.
  repeat (case_step; cbn; try congruence).
  all: reflexivity.
Qed.

Lemma cons_split {A : Type} (a : A) (l pre : list A) (e : A) (post : list A) :
  a :: l = (pre ++ e :: post)%list ->
  (pre = [] /\ e = a /\ post = l) \/
  (exists pre', pre = a :: pre' /\ l = (pre' ++ e :: post)%list).
Proof.
  destruct pre as [| b pre']; cbn; intros [= -> ->].
  - left. repeat split.
  - right. exists pre'. split; reflexivity.
Qed.

Lemma nil_split {A : Type} (pre : list A) (e : A) (post : list A) :
  [] = (pre ++ e :: post)%list -> False.
Proof. destruct pre; discriminate. Qed.

Lemma attention_names_not_resnet (args : Namespace) :
  Namespace.attention args = true ->
  accepted_attention_type args = true ->
  Py.str_in (attention_model_name args (Namespace.model_name args))
    resnet_family = false.
Proof.
  unfold accepted_attention_type, attention_model_name. intros -> H.
  rewrite str_in_two in H.
  destruct (String.eqb_spec (Namespace.attention_type args) "senet");
    [reflexivity |].
  destruct (String.eqb_spec (Namespace.attention_type args) "official");
    [reflexivity | discriminate].
Qed.

(** C3 (as amended).  When [attention_type] is neither ["official"] nor
    ["senet"], [cmd_parser] raises a [ValueError], [main] ends with that very
    exception, and nothing at all has happened before it: the trace is empty,
    so in particular no model was built. *)
Theorem invalid_attention_type_raises_ValueError_first
    (str_float : float -> string) (env : environ) (parsed : Namespace) :
  Py.str_in (Namespace.attention_type parsed) ["official"; "senet"] = false ->
  cmd_parser parsed = inl (ValueError (attention_type_message parsed)) /\
  main str_float env parsed
  = ([], inl (ValueError (attention_type_message parsed))).
Proof.
  intros H. unfold main, cmd_parser. rewrite H. split; reflexivity.
Qed.

(** C3, at [--attention_type foo]. *)
Lemma attention_type_foo_raises_ValueError_first :
  cmd_parser (invocation "mnist" "ResNet18" "no_schedule" 1 false "foo")
  = inl (ValueError
           (attention_type_message
              (invocation "mnist" "ResNet18" "no_schedule" 1 false "foo"))) /\
  main sample_str_float sample_env
    (invocation "mnist" "ResNet18" "no_schedule" 1 false "foo")
  = ([], inl (ValueError
                (attention_type_message
                   (invocation "mnist" "ResNet18" "no_schedule" 1 false "foo")))).
Proof.
  apply (invalid_attention_type_raises_ValueError_first
           sample_str_float sample_env
           (invocation "mnist" "ResNet18" "no_schedule" 1 false "foo")).
  reflexivity.
Defined.

(** C3 as stated fails: at [--attention_type foo] the exception is a
    [ValueError], the class the script also uses for a bad [model_name], and
    not an argument error of [argparse]. *)
Lemma attention_type_error_is_not_an_argument_error :
  option_map is_ValueError
    (raised (main sample_str_float sample_env
               (invocation "mnist" "ResNet18" "no_schedule" 1 false "foo")))
  = Some true /\
  option_map is_ArgumentTypeError
    (raised (main sample_str_float sample_env
               (invocation "mnist" "ResNet18" "no_schedule" 1 false "foo")))
  = Some false.
Proof. split; reflexivity. Qed.

(** C4.  With dataset ["mnist"] and a [model_name] outside
    [available_models], [main] raises a [ValueError], and no model has been
    built when it does. *)
Theorem mnist_unavailable_model_raises_ValueError
    (str_float : float -> string) (env : environ) (parsed : Namespace) :
  Namespace.dataset parsed = "mnist" ->
  Py.str_in (Namespace.model_name parsed) available_models = false ->
  (exists msg, outcome (main str_float env parsed) = inl (ValueError msg)) /\
  builds_of (trace (main str_float env parsed)) = [].
Proof.
  intros Hd Hm.
  assert (Hrej : rejected_model_name parsed = true).
  { unfold rejected_model_name. now rewrite Hd, Hm. }
  rewrite main_staged. unfold staged. rewrite Hrej.
  destruct (accepted_attention_type parsed); cbn;
    (split; [eexists |]; reflexivity).
Qed.

(** C4, at the defaults: [--dataset mnist --model_name NoModel]. *)
Lemma default_model_name_raises_ValueError :
  (exists msg,
     outcome (main sample_str_float sample_env (Namespace.defaults 42))
     = inl (ValueError msg)) /\
  builds_of (trace (main sample_str_float sample_env (Namespace.defaults 42)))
  = [].
Proof.
  apply (mnist_unavailable_model_raises_ValueError
           sample_str_float sample_env (Namespace.defaults 42));
    reflexivity.
Defined.

(** The directories a run creates are, in this order, the [ckpts] and the
    [logs] directory that lines 182-186 compute with [os.path.join] and
    [expanduser] from the dataset name, the model name (the local
    [model_name] as it stands at line 184), the batch size, the epoch count,
    the learning rate, the optimizer name and the timestamp.  A run that is
    stopped by one of the two input checks creates no directory. *)
Lemma run_directories_derive_from_run_parameters
    (str_float : float -> string) (env : environ) (parsed : Namespace) :
  makedirs_of (trace (main str_float env parsed)) =
    if reaches_paths parsed then
      [run_dir str_float (HOME env) (Namespace.dataset parsed)
         (path_model_name parsed) (Namespace.batch_size parsed)
         (Namespace.epochs parsed) (Namespace.learning_rate parsed)
         (Namespace.optimizer_name parsed) (now env) "ckpts";
       run_dir str_float (HOME env) (Namespace.dataset parsed)
         (path_model_name parsed) (Namespace.batch_size parsed)
         (Namespace.epochs parsed) (Namespace.learning_rate parsed)
         (Namespace.optimizer_name parsed) (now env) "logs"]
    else [].
Proof.
  unfold reaches_paths. staged_cases main_staged parsed; try reflexivity.
  all: cbn; destruct (PrimFloat.ltb _ _); reflexivity.
Qed.

(** C5 (as amended).  For a run that passes both input checks, whose home
    directory does not end in a slash and whose dataset name, model name
    (the local [model_name] at line 184), optimizer name and timestamp are
    plain path components (not empty, no slash at either end), the two
    directories are derived from exactly the dataset name, the model name,
    the batch size, the epoch count, the learning rate, the optimizer name
    and the timestamp: they are, in this order, [ckpts] and [logs] under
    [dataset/model_name/b{batch_size}-e{epochs}-lr{learning_rate}/
    optimizer_name/timestamp] under the artifacts prefix
    [HOME/Documents/DeepLearningData]. *)
Theorem run_directories_are_laid_out_under_the_prefix
    (str_float : float -> string) (env : environ) (parsed : Namespace) :
  reaches_paths parsed = true ->
  Py.ends_with_sep (HOME env) = false ->
  plain_component (Namespace.dataset parsed) = true ->
  plain_component (path_model_name parsed) = true ->
  Py.ends_with_sep (str_float (Namespace.learning_rate parsed)) = false ->
  plain_component (Namespace.optimizer_name parsed) = true ->
  plain_component (now env) = true ->
  makedirs_of (trace (main str_float env parsed))
  = [HOME env ++ "/Documents/DeepLearningData/"
     ++ Namespace.dataset parsed ++ "/" ++ path_model_name parsed
     ++ "/b" ++ Py.str_int (Namespace.batch_size parsed)
     ++ "-e" ++ Py.str_int (Namespace.epochs parsed)
     ++ "-lr" ++ str_float (Namespace.learning_rate parsed)
     ++ "/" ++ Namespace.optimizer_name parsed ++ "/" ++ now env
     ++ "/" ++ "ckpts";
     HOME env ++ "/Documents/DeepLearningData/"
     ++ Namespace.dataset parsed ++ "/" ++ path_model_name parsed
     ++ "/b" ++ Py.str_int (Namespace.batch_size parsed)
     ++ "-e" ++ Py.str_int (Namespace.epochs parsed)
     ++ "-lr" ++ str_float (Namespace.learning_rate parsed)
     ++ "/" ++ Namespace.optimizer_name parsed ++ "/" ++ now env
     ++ "/" ++ "logs"].
Proof.
  intros Hr Hh Hd Hm Hl Ho Ht.
  rewrite run_directories_derive_from_run_parameters, Hr.
  rewrite !run_dir_is_laid_out_plainly by (assumption || reflexivity).
  reflexivity.
Qed.

(** C5 (as amended), on the sample CIFAR-10 run. *)
Lemma sample_cifar10_run_is_laid_out_under_the_prefix :
  makedirs_of
    (trace (main sample_str_float sample_env
              (invocation "cifar10" "NoModel" "keras_lr_scheduler" 1 false
                 "official")))
  = ["/home/user/Documents/DeepLearningData/cifar10/ResNet20v1_CIFAR10/b32-e100-lr0.1/SGD/20201104-205700/ckpts";
     "/home/user/Documents/DeepLearningData/cifar10/ResNet20v1_CIFAR10/b32-e100-lr0.1/SGD/20201104-205700/logs"].
Proof.
  exact (run_directories_are_laid_out_under_the_prefix sample_str_float
           sample_env
           (invocation "cifar10" "NoModel" "keras_lr_scheduler" 1 false
              "official")
           eq_refl eq_refl eq_refl eq_refl eq_refl eq_refl eq_refl).
Defined.

(** C5 as stated fails at [--dataset /srv/runs --model_name ResNet18]: the
    dataset name starts with a slash, [os.path.join] drops the artifacts
    prefix, and neither directory lies under
    [/home/user/Documents/DeepLearningData]. *)
Lemma absolute_dataset_run_is_outside_the_prefix :
  makedirs_of
    (trace (main sample_str_float sample_env
              (invocation "/srv/runs" "ResNet18" "no_schedule" 1 false
                 "official")))
  = ["/srv/runs/ResNet18/b32-e100-lr0.1/SGD/20201104-205700/ckpts";
     "/srv/runs/ResNet18/b32-e100-lr0.1/SGD/20201104-205700/logs"] /\
  existsb (String.prefix "/home/user/Documents/DeepLearningData")
    (makedirs_of
       (trace (main sample_str_float sample_env
                 (invocation "/srv/runs" "ResNet18" "no_schedule" 1 false
                    "official"))))
  = false.
Proof. split; reflexivity. Qed.

(** The two directories of the sample CIFAR-10 run. *)
Example sample_run_directories :
  makedirs_of
    (trace (main sample_str_float sample_env
              (invocation "cifar10" "NoModel" "keras_lr_scheduler" 1 false
                 "official")))
  = ["/home/user/Documents/DeepLearningData/cifar10/ResNet20v1_CIFAR10/b32-e100-lr0.1/SGD/20201104-205700/ckpts";
     "/home/user/Documents/DeepLearningData/cifar10/ResNet20v1_CIFAR10/b32-e100-lr0.1/SGD/20201104-205700/logs"].
Proof. reflexivity. Qed.

(** C6.  A run that reaches the artifact stage, that is, one that creates
    a directory, dumps the configuration record exactly once: [vars(args)],
    with [depth] added on the CIFAR-10 path, goes into [config.json] of the
    run's log directory, which the run opens for writing. *)
Theorem config_is_dumped_exactly_once
    (str_float : float -> string) (env : environ) (parsed : Namespace) :
  (exists p, In (Makedirs p) (trace (main str_float env parsed))) ->
  config_dumps (trace (main str_float env parsed)) =
    [(config_record parsed,
      Py.os_path_join (run_dir_of str_float env parsed "logs") ["config.json"])]
  /\ In (OpenWrite
           (Py.os_path_join (run_dir_of str_float env parsed "logs")
              ["config.json"]))
        (trace (main str_float env parsed)).
Proof.
  intros [p Hp]. revert Hp.
  staged_cases main_staged parsed; cbn; try (now intuition discriminate).
  all: try (intros _; split; [reflexivity | in_list]).
  all: destruct (PrimFloat.ltb _ _); cbn;
    intros _; (split; [reflexivity | in_list]).
Qed.

(** C6, on the sample CIFAR-10 run. *)
Lemma sample_run_dumps_config_once :
  map snd
    (config_dumps
       (trace (main sample_str_float sample_env
                 (invocation "cifar10" "NoModel" "keras_lr_scheduler" 1 false
                    "official"))))
  = ["/home/user/Documents/DeepLearningData/cifar10/ResNet20v1_CIFAR10/b32-e100-lr0.1/SGD/20201104-205700/logs/config.json"].
Proof.
  destruct (config_is_dumped_exactly_once sample_str_float sample_env
              (invocation "cifar10" "NoModel" "keras_lr_scheduler" 1 false
                 "official")) as [H _].
  - exists "/home/user/Documents/DeepLearningData/cifar10/ResNet20v1_CIFAR10/b32-e100-lr0.1/SGD/20201104-205700/ckpts".
    vm_compute. repeat (first [left; reflexivity | right]).
  - rewrite H. reflexivity.
Defined.

(** C7.  Wherever a run is cut, the event at the cut finds its directory
    already created: [config.json] is opened, and the CSV logger and the
    TensorBoard callback are constructed, only after [makedirs(log_dir)];
    the checkpoint callback is constructed, with its path joined onto
    [ckpt_dir], only after [makedirs(ckpt_dir)]; and [model.fit] starts after
    both. *)
Theorem directories_are_created_before_use
    (str_float : float -> string) (env : environ) (parsed : Namespace)
    (pre : list event) (e : event) (post : list event) :
  trace (main str_float env parsed) = (pre ++ e :: post)%list ->
  created_before_use
    (run_dir_of str_float env parsed "logs")
    (run_dir_of str_float env parsed "ckpts")
    (ckpt_filename_of parsed) pre e.
Proof.
  staged_cases main_staged parsed; cbn; try destruct (PrimFloat.ltb _ _); cbn; intros H.
  all: repeat
         (apply cons_split in H;
          destruct H as [(-> & -> & ->) | (? & -> & H)];
          [cbn; repeat split; in_list |]).
  all: now apply nil_split in H.
Qed.

(** C7, on the sample CIFAR-10 run, cut at the [open] of [config.json]
    (its eighth event). *)
Lemma sample_log_dir_is_created_before_config_json :
  In (Makedirs
        "/home/user/Documents/DeepLearningData/cifar10/ResNet20v1_CIFAR10/b32-e100-lr0.1/SGD/20201104-205700/logs")
     (firstn 7
        (trace (main sample_str_float sample_env
                  (invocation "cifar10" "NoModel" "keras_lr_scheduler" 1 false
                     "official")))).
Proof.
  exact (proj2
           (directories_are_created_before_use sample_str_float sample_env
              (invocation "cifar10" "NoModel" "keras_lr_scheduler" 1 false
                 "official")
              (firstn 7
                 (trace (main sample_str_float sample_env
                           (invocation "cifar10" "NoModel" "keras_lr_scheduler"
                              1 false "official"))))
              (OpenWrite
                 "/home/user/Documents/DeepLearningData/cifar10/ResNet20v1_CIFAR10/b32-e100-lr0.1/SGD/20201104-205700/logs/config.json")
              (skipn 8
                 (trace (main sample_str_float sample_env
                           (invocation "cifar10" "NoModel" "keras_lr_scheduler"
                              1 false "official"))))
              eq_refl)).
Defined.








(** C10.  With [validation_split > 0], every [model.fit] call of a run
    validates on the CIFAR-10 test arrays and trains on the two training
    parts of the split; neither argument is, or is cut from, the validation
    part, which the split (performed just before) has produced. *)
Theorem validation_part_never_reaches_fit
    (str_float : float -> string) (env : environ) (parsed : Namespace)
    (m : model) (x y : array) (batch epoch_count : Z)
    (validation_data : array * array) (callbacks : list callback) :
  (0 <? Namespace.validation_split parsed)%float = true ->
  In (Fit m x y batch epoch_count validation_data callbacks)
     (trace (main str_float env parsed)) ->
  validation_data = (cifar10_x_test, cifar10_y_test) /\
  x = train_test_split x_train_part cifar10_x_train cifar10_y_train
        (Namespace.validation_split parsed) (Namespace.seed parsed) /\
  y = train_test_split y_train_part cifar10_x_train cifar10_y_train
        (Namespace.validation_split parsed) (Namespace.seed parsed) /\
  from_validation_part x = false /\
  from_validation_part y = false /\
  In (TrainTestSplit (Namespace.validation_split parsed)
        (Namespace.seed parsed))
     (trace (main str_float env parsed)).
Proof.
  intros Hv. staged_cases main_staged parsed; rewrite ?Hv; cbn; intros He.
  all: repeat (destruct He as [He | He]; [try discriminate |]);
    try contradiction.
  all: injection He as <- <- <- <- <- <- <-.
  all: repeat split; in_list.
Qed.

(** C10, on the sample CIFAR-10 run, whose [validation_split] is 0.2. *)
Lemma sample_fit_validates_on_the_test_set :
  from_validation_part
    (train_test_split x_train_part cifar10_x_train cifar10_y_train
       0.2%float 42) = false /\
  In (TrainTestSplit 0.2%float 42)
     (trace (main sample_str_float sample_env
               (invocation "cifar10" "NoModel" "keras_lr_scheduler" 1 false
                  "official"))).
Proof.
  pose proof (validation_part_never_reaches_fit sample_str_float sample_env
                (invocation "cifar10" "NoModel" "keras_lr_scheduler" 1 false
                   "official")
                (create_model_cifar10 20 1)
                (train_test_split x_train_part cifar10_x_train cifar10_y_train
                   0.2%float 42)
                (train_test_split y_train_part cifar10_x_train cifar10_y_train
                   0.2%float 42)
                32 100 (cifar10_x_test, cifar10_y_test)
                (callbacks_of sample_str_float sample_env
                   (invocation "cifar10" "NoModel" "keras_lr_scheduler" 1 false
                      "official") keras_lr_scheduler)
                eq_refl) as H.
  destruct H as (_ & _ & _ & Hx & _ & Hsplit).
  - vm_compute. repeat (first [left; reflexivity | right]).
  - split; [exact Hx | exact Hsplit].
Defined.

(** ** Further properties of [main] *)

Lemma resnet_family_is_available (name : string) :
  Py.str_in name resnet_family = true ->
  Py.str_in name available_models = true.
Proof.
  unfold Py.str_in, available_models. intros H.
  rewrite existsb_app, H. apply orb_true_r.
Qed.

Lemma select_lr_schedule_fn_some (s : string) :
  select_lr_schedule_fn s <> None <->
  s = "cifar10_scheduler" \/ s = "keras_lr_scheduler".
Proof.
  unfold select_lr_schedule_fn.
  destruct (String.eqb_spec s "cifar10_scheduler") as [-> | H1].
  - split; [now left | discriminate].
  - destruct (String.eqb_spec s "keras_lr_scheduler") as [-> | H2].
    + split; [now right | discriminate].
    + split; [congruence | intros [? | ?]; contradiction].
Qed.

(** What a run has built, created and dumped, whether or not it fails
    later. *)
Lemma effects_of_a_run (str_float : float -> string) (env : environ)
    (parsed : Namespace) :
  builds_of (trace (main str_float env parsed))
  = (if reaches_paths parsed then builds_of (builds parsed) else []) /\
  makedirs_of (trace (main str_float env parsed))
  = (if reaches_paths parsed
     then [run_dir_of str_float env parsed "ckpts";
           run_dir_of str_float env parsed "logs"]
     else []) /\
  config_dumps (trace (main str_float env parsed))
  = (if reaches_paths parsed
     then [(config_record parsed,
            Py.os_path_join (run_dir_of str_float env parsed "logs")
              ["config.json"])]
     else []).
Proof.
  unfold reaches_paths. staged_cases main_staged parsed; cbn;
    try destruct (PrimFloat.ltb _ _); repeat split; reflexivity.
Qed.

(** X1.  On the MNIST path a run can return normally only when
    [attention_type] is accepted, [--attention] is off, [model_name] is one
    of the five ResNet names and [lr_schedule] is one of the two recognised
    names.  Every other MNIST command line ends in an exception: so do
    [--attention True] and the LeNet names that the check at line 147 lets
    through. *)
Theorem mnist_run_returns_only_if
    (str_float : float -> string) (env : environ) (parsed : Namespace) :
  Namespace.dataset parsed = "mnist" ->
  outcome (main str_float env parsed) = inr tt ->
  Py.str_in (Namespace.attention_type parsed) ["official"; "senet"] = true /\
  Namespace.attention parsed = false /\
  Py.str_in (Namespace.model_name parsed) resnet_family = true /\
  (Namespace.lr_schedule parsed = "cifar10_scheduler" \/
   Namespace.lr_schedule parsed = "keras_lr_scheduler").
Proof.
  intros Hd. rewrite <- select_lr_schedule_fn_some.
  rewrite main_staged. unfold staged, rejected_model_name, built_model.
  rewrite Hd. change (("mnist" =? "mnist")%string) with true. cbn [andb].
  fold (accepted_attention_type parsed).
  destruct (accepted_attention_type parsed) eqn:Hacc; cbn [negb];
    [| discriminate].
  destruct (Py.str_in (Namespace.model_name parsed) available_models);
    cbn [negb]; [| discriminate].
  destruct (select_lr_schedule_fn (Namespace.lr_schedule parsed));
    [| discriminate].
  destruct (Namespace.attention parsed) eqn:Hatt.
  - rewrite (attention_names_not_resnet parsed Hatt Hacc). discriminate.
  - assert (He : attention_model_name parsed (Namespace.model_name parsed)
                 = Namespace.model_name parsed)
      by (unfold attention_model_name; now rewrite Hatt).
    rewrite He.
    destruct (Py.str_in (Namespace.model_name parsed) resnet_family);
      [| discriminate].
    intros _. repeat split. discriminate.
Qed.

(** X1, on the sample MNIST run with ResNet18 and a scheduler, which
    returns. *)
Lemma returning_mnist_sample_has_a_resnet_and_a_scheduler :
  Py.str_in "ResNet18" resnet_family = true /\
  (Namespace.lr_schedule
     (invocation "mnist" "ResNet18" "keras_lr_scheduler" 1 false "official")
   = "cifar10_scheduler" \/
   Namespace.lr_schedule
     (invocation "mnist" "ResNet18" "keras_lr_scheduler" 1 false "official")
   = "keras_lr_scheduler").
Proof.
  destruct (mnist_run_returns_only_if sample_str_float sample_env
              (invocation "mnist" "ResNet18" "keras_lr_scheduler" 1 false
                 "official") eq_refl eq_refl) as (_ & _ & Hr & Hl).
  split; [exact Hr | exact Hl].
Defined.

(** X2.  [model.fit] is the last thing a run that returns has done, and
    it has happened once; a run that raises has not called it at all. *)
Theorem fit_is_called_once_and_last
    (str_float : float -> string) (env : environ) (parsed : Namespace) :
  match outcome (main str_float env parsed) with
  | inr _ =>
      is_Fit (last (trace (main str_float env parsed)) FirstTrainBatch) = true
      /\ existsb is_Fit (removelast (trace (main str_float env parsed)))
         = false
  | inl _ => existsb is_Fit (trace (main str_float env parsed)) = false
  end.
Proof.
  staged_cases main_staged parsed; cbn;
    try destruct (PrimFloat.ltb _ _); cbn; try split; reflexivity.
Qed.

Lemma precedes_later (a b c : event) (l : list event) :
  precedes a b l -> precedes a b (c :: l).
Proof.
  intros (before & after & -> & Hin).
  exists (c :: before), after. split; [reflexivity | now right].
Qed.

Lemma precedes_found (a b : event) (l : list event) :
  In b l -> precedes a b (a :: l).
Proof.
  intros (before & after & ->)%in_split.
  exists (a :: before), after. split; [reflexivity | now left].
Qed.

(** X3.  Whatever [model.fit] is given, the run has prepared before: the
    model was built and then compiled, with the optimizer the run created;
    every callback in the list was constructed, and every callback
    constructed is in the list, in the order CSV logger, learning-rate
    scheduler, checkpoint, TensorBoard; the batch size and the epoch count
    are those of the command line; nothing follows the call; and the model
    was built before it was compiled. *)
Theorem fit_uses_what_the_run_prepared
    (str_float : float -> string) (env : environ) (parsed : Namespace)
    (pre : list event) (m : model) (x y : array) (batch epoch_count : Z)
    (validation_data : array * array) (callbacks : list callback)
    (post : list event) :
  trace (main str_float env parsed)
  = (pre ++ Fit m x y batch epoch_count validation_data callbacks :: post)%list ->
  In (Build m) pre /\
  In (NewOptimizer (optimizer_of parsed)) pre /\
  In (Compile m (optimizer_of parsed)) pre /\
  (exists log fn ckpt board,
     callbacks = [CSVLogger log; LearningRateScheduler fn;
                  ModelCheckpoint ckpt; TensorBoard board]) /\
  (forall c, In c callbacks <-> In (New c) pre) /\
  batch = Namespace.batch_size parsed /\
  epoch_count = Namespace.epochs parsed /\
  post = [] /\
  precedes (Build m) (Compile m (optimizer_of parsed)) pre.
Proof.
  staged_cases main_staged parsed; cbn; try destruct (PrimFloat.ltb _ _);
    cbn; intros H.
  all: repeat
         (apply cons_split in H;
          destruct H as [(Hpre & He & Hpost) | (? & -> & H)];
          [try discriminate He |]).
  all: try (now apply nil_split in H).
  all: injection He as ? ? ? ? ? ? ?; subst.
  all: split; [in_list |]; split; [in_list |]; split; [in_list |].
  all: split; [do 4 eexists; reflexivity |].
  all: split;
    [| split; [reflexivity |]; split; [reflexivity |]; split; [reflexivity |];
       repeat first [apply precedes_found; in_list | apply precedes_later]].
  all: intros cb; unfold callbacks_of; cbn; split; intros Hc.
  all: repeat (destruct Hc as [Hc | Hc];
               [first [discriminate Hc
                      | injection Hc as <-; tauto
                      | subst cb; tauto] |]);
    try contradiction.
Qed.

(** X3, on the sample CIFAR-10 run, whose twentieth event is the call. *)
Lemma sample_fit_model_was_built_and_compiled :
  In (Build (create_model_cifar10 20 1))
     (firstn 19
        (trace (main sample_str_float sample_env
                  (invocation "cifar10" "NoModel" "keras_lr_scheduler" 1 false
                     "official")))) /\
  In (Compile (create_model_cifar10 20 1)
        (optimizer_of
           (invocation "cifar10" "NoModel" "keras_lr_scheduler" 1 false
              "official")))
     (firstn 19
        (trace (main sample_str_float sample_env
                  (invocation "cifar10" "NoModel" "keras_lr_scheduler" 1 false
                     "official")))).
Proof.
  pose proof (fit_uses_what_the_run_prepared sample_str_float sample_env
                (invocation "cifar10" "NoModel" "keras_lr_scheduler" 1 false
                   "official")
                (firstn 19
                   (trace (main sample_str_float sample_env
                             (invocation "cifar10" "NoModel"
                                "keras_lr_scheduler" 1 false "official"))))
                (create_model_cifar10 20 1)
                (train_test_split x_train_part cifar10_x_train cifar10_y_train
                   0.2%float 42)
                (train_test_split y_train_part cifar10_x_train cifar10_y_train
                   0.2%float 42)
                32 100 (cifar10_x_test, cifar10_y_test)
                (callbacks_of sample_str_float sample_env
                   (invocation "cifar10" "NoModel" "keras_lr_scheduler" 1 false
                      "official") keras_lr_scheduler)
                [] eq_refl) as (Hb & _ & Hc & _).
  split; [exact Hb | exact Hc].
Defined.

(** X4.  When [validation_split] is not greater than zero, which includes
    a NaN, nothing is split off: [train_test_split] is never called, and
    every [model.fit] trains on the whole CIFAR-10 training arrays and
    validates on the test arrays. *)
Theorem no_split_without_a_positive_validation_split
    (str_float : float -> string) (env : environ) (parsed : Namespace) :
  (0 <? Namespace.validation_split parsed)%float = false ->
  existsb is_TrainTestSplit (trace (main str_float env parsed)) = false /\
  (forall m x y batch epoch_count validation_data callbacks,
     In (Fit m x y batch epoch_count validation_data callbacks)
        (trace (main str_float env parsed)) ->
     x = cifar10_x_train /\ y = cifar10_y_train /\
     validation_data = (cifar10_x_test, cifar10_y_test)).
Proof.
  intros Hv. staged_cases main_staged parsed; rewrite ?Hv; cbn;
    (split; [reflexivity |]); intros m0 x0 y0 b0 ep0 vd cbs He.
  all: repeat (destruct He as [He | He]; [try discriminate |]);
    try contradiction.
  all: injection He as ? ? ? ? ? ? ?; subst; repeat split.
Qed.

(** X4, at [--validation_split nan] on the sample CIFAR-10 run. *)
Lemma nan_validation_split_is_no_split :
  existsb is_TrainTestSplit
    (trace (main sample_str_float sample_env
              (with_validation_split
                 (invocation "cifar10" "NoModel" "keras_lr_scheduler" 1 false
                    "official") nan))) = false.
Proof.
  apply (no_split_without_a_positive_validation_split sample_str_float
           sample_env
           (with_validation_split
              (invocation "cifar10" "NoModel" "keras_lr_scheduler" 1 false
                 "official") nan)).
  reflexivity.
Defined.

Lemma reaches_paths_cifar10 (args : Namespace) :
  Namespace.dataset args = "cifar10" ->
  accepted_attention_type args = true ->
  reaches_paths args = true.
Proof.
  intros Hd Ha. unfold reaches_paths, rejected_model_name.
  rewrite Ha, Hd. reflexivity.
Qed.

Lemma builds_cifar10 (args : Namespace) :
  Namespace.dataset args = "cifar10" ->
  builds args
  = [Build (create_model_cifar10 (Namespace.n args * 6 + 2)
              (Namespace.version args))].
Proof. intros Hd. unfold builds, built_model. rewrite Hd. reflexivity. Qed.

(** X5.  On the CIFAR-10 path [--model_name], [--attention], an accepted
    [--attention_type] and [--num_classes] change nothing: two command lines
    that agree on [n], [version], the batch size, the epoch count, the
    learning rate and the optimizer name build the same model and create the
    same directories. *)
Theorem cifar10_ignores_model_name_and_attention
    (str_float : float -> string) (env : environ) (a b : Namespace) :
  Namespace.dataset a = "cifar10" ->
  Namespace.dataset b = "cifar10" ->
  accepted_attention_type a = true ->
  accepted_attention_type b = true ->
  Namespace.n a = Namespace.n b ->
  Namespace.version a = Namespace.version b ->
  Namespace.batch_size a = Namespace.batch_size b ->
  Namespace.epochs a = Namespace.epochs b ->
  Namespace.learning_rate a = Namespace.learning_rate b ->
  Namespace.optimizer_name a = Namespace.optimizer_name b ->
  builds_of (trace (main str_float env a))
  = builds_of (trace (main str_float env b)) /\
  makedirs_of (trace (main str_float env a))
  = makedirs_of (trace (main str_float env b)).
Proof.
  intros Da Db Aa Ab Hn Hv Hb He Hl Ho.
  destruct (effects_of_a_run str_float env a) as (-> & -> & _).
  destruct (effects_of_a_run str_float env b) as (-> & -> & _).
  rewrite (reaches_paths_cifar10 a Da Aa), (reaches_paths_cifar10 b Db Ab).
  rewrite (builds_cifar10 a Da), (builds_cifar10 b Db).
  unfold run_dir_of, path_model_name.
  rewrite Da, Db, Hn, Hv, Hb, He, Hl, Ho. split; reflexivity.
Qed.

(** X5, at [--model_name ResNet18 --attention True --attention_type senet]
    against the bare [--dataset cifar10]. *)
Lemma sample_cifar10_run_ignores_attention :
  makedirs_of
    (trace (main sample_str_float sample_env
              (invocation "cifar10" "NoModel" "no_schedule" 1 false "official")))
  = makedirs_of
      (trace (main sample_str_float sample_env
                (invocation "cifar10" "ResNet18" "no_schedule" 1 true "senet"))).
Proof.
  apply (cifar10_ignores_model_name_and_attention sample_str_float sample_env
           (invocation "cifar10" "NoModel" "no_schedule" 1 false "official")
           (invocation "cifar10" "ResNet18" "no_schedule" 1 true "senet"));
    reflexivity.
Defined.











(** X7.  When the home directory has no trailing slash and the dataset
    name, the model name, the optimizer name and the timestamp are plain
    path components (not empty, no slash at either end), the directories a
    run creates are literally
    [HOME/Documents/DeepLearningData/dataset/model/b..-e..-lr../optimizer/
    timestamp/ckpts] and [.../logs]. *)
Theorem plain_names_give_the_literal_layout
    (str_float : float -> string) (env : environ) (parsed : Namespace) :
  reaches_paths parsed = true ->
  Py.ends_with_sep (HOME env) = false ->
  plain_component (Namespace.dataset parsed) = true ->
  plain_component (path_model_name parsed) = true ->
  Py.ends_with_sep (str_float (Namespace.learning_rate parsed)) = false ->
  plain_component (Namespace.optimizer_name parsed) = true ->
  plain_component (now env) = true ->
  makedirs_of (trace (main str_float env parsed))
  = map
      (run_dir_layout str_float (HOME env) (Namespace.dataset parsed)
         (path_model_name parsed) (Namespace.batch_size parsed)
         (Namespace.epochs parsed) (Namespace.learning_rate parsed)
         (Namespace.optimizer_name parsed) (now env))
      ["ckpts"; "logs"].
Proof.
  intros Hr Hh Hd Hm Hl Ho Ht.
  destruct (effects_of_a_run str_float env parsed) as (_ & -> & _).
  rewrite Hr. unfold run_dir_of.
  rewrite !run_dir_is_laid_out_plainly by (assumption || reflexivity).
  reflexivity.
Qed.

(** X7, on the sample MNIST run with ResNet18. *)
Lemma sample_mnist_run_layout :
  makedirs_of
    (trace (main sample_str_float sample_env
              (invocation "mnist" "ResNet18" "keras_lr_scheduler" 1 false
                 "official")))
  = ["/home/user/Documents/DeepLearningData/mnist/ResNet18/b32-e100-lr0.1/SGD/20201104-205700/ckpts";
     "/home/user/Documents/DeepLearningData/mnist/ResNet18/b32-e100-lr0.1/SGD/20201104-205700/logs"].
Proof.
  exact (plain_names_give_the_literal_layout sample_str_float sample_env
           (invocation "mnist" "ResNet18" "keras_lr_scheduler" 1 false
              "official")
           eq_refl eq_refl eq_refl eq_refl eq_refl eq_refl eq_refl).
Defined.

(** X8.  The script's own failures, and what the run has done by then.
    When one of the two input checks fires ([attention_type] not accepted,
    line 88; dataset ["mnist"] with a [model_name] outside the list, line
    147), the [ValueError] it raises comes before any model is built, any
    directory created and any file written.  When the run stops on an
    unassigned local, the [UnboundLocalError] is for [lr_schedule_fn] (line
    196) or for [model] (line 204): by then both directories exist and the
    configuration has been dumped once, and nothing was compiled or
    fitted. *)
Theorem script_failures_and_what_they_leave_behind
    (str_float : float -> string) (env : environ) (parsed : Namespace) :
  (reaches_paths parsed = false ->
     (raised (main str_float env parsed)
      = Some (ValueError (attention_type_message parsed)) \/
      raised (main str_float env parsed)
      = Some (ValueError (model_name_message parsed))) /\
     builds_of (trace (main str_float env parsed)) = [] /\
     makedirs_of (trace (main str_float env parsed)) = [] /\
     config_dumps (trace (main str_float env parsed)) = []) /\
  (forall name,
     raised (main str_float env parsed) = Some (UnboundLocalError name) ->
     (name = "lr_schedule_fn" \/ name = "model") /\
     length (makedirs_of (trace (main str_float env parsed))) = 2%nat /\
     length (config_dumps (trace (main str_float env parsed))) = 1%nat /\
     existsb is_training (trace (main str_float env parsed)) = false).
Proof.
  unfold reaches_paths.
  staged_cases main_staged parsed; cbn; try destruct (PrimFloat.ltb _ _);
    cbn; (split; [intros Hr | intros name Hn]);
    try discriminate; try (injection Hn as <-); repeat split; auto.
Qed.

(** X9.  One seed: whatever is handed to a random number generator, by
    the global seeding of lines 135-141 and by [train_test_split], is
    [args.seed]. *)
Theorem every_seed_is_the_command_line_seed
    (str_float : float -> string) (env : environ) (parsed : Namespace) :
  Forall
    (fun e =>
       match seed_used e with
       | Some s => s = Namespace.seed parsed
       | None => True
       end)
    (trace (main str_float env parsed)).
Proof.
  staged_cases main_staged parsed; cbn; try destruct (PrimFloat.ltb _ _);
    repeat constructor.
Qed.

(** X10.  For a dataset other than ["mnist"] and ["cifar10"] the model
    name is not checked against [available_models]: whatever name is in
    force, the default ["NoModel"] included, goes to [create_model], one
    model is built, and the namespace is dumped as parsed. *)
Theorem other_datasets_skip_the_model_name_check
    (str_float : float -> string) (env : environ) (parsed : Namespace) :
  Namespace.dataset parsed <> "mnist" ->
  Namespace.dataset parsed <> "cifar10" ->
  accepted_attention_type parsed = true ->
  builds_of (trace (main str_float env parsed))
  = [create_model
       (attention_model_name parsed (Namespace.model_name parsed))
       (Namespace.num_classes parsed)] /\
  map fst (config_dumps (trace (main str_float env parsed))) = [parsed].
Proof.
  intros H1 H2 Ha.
  assert (Hrej : rejected_model_name parsed = false).
  { unfold rejected_model_name.
    destruct (String.eqb_spec (Namespace.dataset parsed) "mnist");
      [contradiction | reflexivity]. }
  assert (Hm : built_model parsed
               = Some (create_model
                         (attention_model_name parsed
                            (Namespace.model_name parsed))
                         (Namespace.num_classes parsed))).
  { unfold built_model.
    destruct (String.eqb_spec (Namespace.dataset parsed) "mnist");
      [contradiction |].
    destruct (String.eqb_spec (Namespace.dataset parsed) "cifar10");
      [contradiction | reflexivity]. }
  destruct (effects_of_a_run str_float env parsed) as (-> & _ & ->).
  unfold reaches_paths, builds, config_record. rewrite Ha, Hrej, Hm.
  destruct (String.eqb_spec (Namespace.dataset parsed) "cifar10");
    [contradiction |].
  split; reflexivity.
Qed.

(** X10, at [--dataset fashion] with the default model name. *)
Lemma NoModel_reaches_create_model_on_another_dataset :
  builds_of
    (trace (main sample_str_float sample_env
              (invocation "fashion" "NoModel" "no_schedule" 1 false
                 "official")))
  = [create_model "NoModel" 10].
Proof.
  refine (proj1
            (other_datasets_skip_the_model_name_check sample_str_float
               sample_env
               (invocation "fashion" "NoModel" "no_schedule" 1 false "official")
               _ _ eq_refl)); discriminate.
Defined.



(** X12.  The model-name check of the MNIST path comes late: by the time
    it raises, the run has printed the arguments, loaded the CIFAR-10
    sequences, set the seed and fetched the first training batch, in this
    order, and has done nothing else. *)
Theorem mnist_model_name_is_checked_after_the_data_is_loaded
    (str_float : float -> string) (env : environ) (parsed : Namespace) :
  accepted_attention_type parsed = true ->
  Namespace.dataset parsed = "mnist" ->
  Py.str_in (Namespace.model_name parsed) available_models = false ->
  main str_float env parsed
  = ([PrintArgs parsed; LoadCifar10Sequence parsed;
      SetRandomSeed (Namespace.seed parsed); FirstTrainBatch],
     inl (ValueError (model_name_message parsed))).
Proof.
  intros Ha Hd Hm. rewrite main_staged. unfold staged, rejected_model_name.
  rewrite Ha, Hd, Hm. reflexivity.
Qed.

(** X12, at the defaults. *)
Lemma default_run_loads_the_data_before_it_fails :
  trace (main sample_str_float sample_env (Namespace.defaults 42))
  = [PrintArgs (Namespace.defaults 42);
     LoadCifar10Sequence (Namespace.defaults 42);
     SetRandomSeed 42; FirstTrainBatch].
Proof.
  rewrite (mnist_model_name_is_checked_after_the_data_is_loaded
             sample_str_float sample_env (Namespace.defaults 42)
             eq_refl eq_refl eq_refl).
  reflexivity.
Defined.
